(** * Account lifecycle handlers of [backend/app/users/router.py]

    A shallow embedding of the five request handlers [user_login],
    [user_register], [user_read], [update_user] and [delete_user], over an
    explicit model of the SQL session they talk to, followed by the
    properties the specification states about them.

    The handlers are written in a small state-and-exception monad: the state
    is the content of the [users] table, an exception is either the
    [HTTPException] a handler raises itself or an error of the Python runtime
    or of the database layer that no handler catches. *)

From stdpp Require Import base gmap strings list.
From Stdlib Require Import ZArith Ascii String DecimalString.

Open Scope Z_scope.
Open Scope string_scope.

(** ** Values and exceptions *)

(** The values of a decoded token's dictionary. *)
Inductive jvalue :=
| JNull
| JInt (z : Z)
| JStr (s : string).

#[global] Instance jvalue_eq_dec : EqDecision jvalue.
Proof. solve_decision. Defined.

(** What a handler can raise.  Only [HTTPException] is turned into a status
    code of its own by the framework; the others surface as a server error. *)
Inductive exn :=
| HTTPException (status_code : Z) (detail : string)
| KeyError (key : string)
| AttributeError (attribute : string)
| NoInspectionAvailable
| UnmappedInstanceError
| IntegrityError.

#[global] Instance exn_eq_dec : EqDecision exn.
Proof. solve_decision. Defined.

Definition HTTP_200_OK : Z := 200.
Definition HTTP_401_UNAUTHORIZED : Z := 401.
Definition HTTP_404_NOT_FOUND : Z := 404.
Definition HTTP_409_CONFLICT : Z := 409.

(** ** The models of [users/model.py] *)

(** Modelled from the spec: [EnUser], declared in [users/model.py], whose
    text is not available.  The router reads [user.username],
    [user.mail] and [user.password] from it, so these three fields are
    certain; the specification's "other fields" play no role in any handler
    and are left out. *)
Module EnUser.
Record t := mk { username : string; mail : string; password : string }.
End EnUser.

#[global] Instance EnUser_eq_dec : EqDecision EnUser.t.
Proof. solve_decision. Defined.

(** Modelled from the spec: [EnUserDB], the table class of [users/model.py],
    with the columns of the specification's Account: [id] is assigned by the
    store (it is [None] on a fresh object, as the [id is not None] test of
    [user_register] shows), [password] holds the hash, the two timestamps
    are seconds. *)
Module EnUserDB.
Record t := mk {
  id : option Z;
  username : string;
  mail : string;
  password : string;
  date_joined : option Z;
  last_login : option Z;
}.
End EnUserDB.

#[global] Instance EnUserDB_eq_dec : EqDecision EnUserDB.t.
Proof. solve_decision. Defined.

(** The attributes of an [EnUserDB] object, for [getattr] and [setattr]. *)
Inductive attr :=
| A_id | A_username | A_mail | A_password | A_date_joined | A_last_login.

#[global] Instance attr_eq_dec : EqDecision attr.
Proof. solve_decision. Defined.

Definition attr_type (a : attr) : Type :=
  match a with
  | A_id | A_date_joined | A_last_login => option Z
  | A_username | A_mail | A_password => string
  end.

Definition getattr (o : EnUserDB.t) (a : attr) : attr_type a :=
  match a with
  | A_id => EnUserDB.id o
  | A_username => EnUserDB.username o
  | A_mail => EnUserDB.mail o
  | A_password => EnUserDB.password o
  | A_date_joined => EnUserDB.date_joined o
  | A_last_login => EnUserDB.last_login o
  end.

Definition setattr (o : EnUserDB.t) (a : attr) : attr_type a → EnUserDB.t :=
  match a with
  | A_id => λ v,
      EnUserDB.mk v (EnUserDB.username o) (EnUserDB.mail o)
        (EnUserDB.password o) (EnUserDB.date_joined o) (EnUserDB.last_login o)
  | A_username => λ v,
      EnUserDB.mk (EnUserDB.id o) v (EnUserDB.mail o)
        (EnUserDB.password o) (EnUserDB.date_joined o) (EnUserDB.last_login o)
  | A_mail => λ v,
      EnUserDB.mk (EnUserDB.id o) (EnUserDB.username o) v
        (EnUserDB.password o) (EnUserDB.date_joined o) (EnUserDB.last_login o)
  | A_password => λ v,
      EnUserDB.mk (EnUserDB.id o) (EnUserDB.username o) (EnUserDB.mail o)
        v (EnUserDB.date_joined o) (EnUserDB.last_login o)
  | A_date_joined => λ v,
      EnUserDB.mk (EnUserDB.id o) (EnUserDB.username o) (EnUserDB.mail o)
        (EnUserDB.password o) v (EnUserDB.last_login o)
  | A_last_login => λ v,
      EnUserDB.mk (EnUserDB.id o) (EnUserDB.username o) (EnUserDB.mail o)
        (EnUserDB.password o) (EnUserDB.date_joined o) v
  end.

(** Modelled from the spec: [EnUserUpdate], declared in [users/model.py].
    The handler only iterates over [user.model_dict().items()]; the payload
    is therefore represented by that list of items, "the fields present in
    the partial update", each value already of its field's type.  The source
    puts no restriction on which attribute an item may name. *)
Definition item : Type := { a : attr & attr_type a }.
Definition item_field (i : item) : attr := projT1 i.
Definition EnUserUpdate : Type := list item.

(** The classes a query can name. *)
Inductive model_class := EnUser_class | EnUserDB_class.

(** Only the [...DB] class is mapped to a table, as [components/model.py]
    does for [EnComponent] and [EnComponentDB] ([table=True]). *)
Definition is_table (c : model_class) : bool :=
  match c with
  | EnUserDB_class => true
  | EnUser_class => false
  end.

(** ** External collaborators *)

(** Python's [str.lower] (which follows the Unicode case tables), [passlib]'s
    PBKDF2 hasher, [jose]'s encoder with the service secret and [HS256],
    [constants.decode_token], and the two properties of the storage engine
    the handlers depend on: the key it gives to an inserted row ([None] when
    it leaves the key unset) and whether the [username] and [mail] columns
    carry unique constraints. *)
Class Externals := {
  str_lower : string → string;
  pbkdf2_sha256_hash : string → string;
  pbkdf2_sha256_verify : string → string → bool;
  jwt_encode : gmap string jvalue → string;
  decode_token : string → exn + gmap string jvalue;
  next_key : list EnUserDB.t → option Z;
  unique_columns : bool;
}.

(** What [str.lower] does to a string of ASCII characters: the letters A-Z
    become a-z.  It is the [str_lower] of the concrete environment below,
    whose names are ASCII. *)
Definition lower_ascii (c : ascii) : ascii :=
  let n := N_of_ascii c in
  if ((65 <=? n)%N && (n <=? 90)%N)%bool then ascii_of_N (n + 32) else c.

Fixpoint lower (s : string) : string :=
  match s with
  | EmptyString => EmptyString
  | String c s' => String (lower_ascii c) (lower s')
  end.

(** ** The session monad *)

Definition Session : Type := list EnUserDB.t.

Definition handler (A : Type) : Type := Session → (exn + A) * Session.

Definition ret {A} (a : A) : handler A := λ db, (inr a, db).

Definition raise {A} (e : exn) : handler A := λ db, (inl e, db).

Definition bind {A B} (m : handler A) (k : A → handler B) : handler B :=
  λ db,
    match m db with
    | (inl e, db') => (inl e, db')
    | (inr a, db') => k a db'
    end.

Notation "'let!' x ':=' m 'in' k" := (bind m (λ x, k))
  (at level 10, x pattern, m at level 100, k at level 200).

(** ** The store *)

(** [select(EnUserDB).where(...)] followed by [.first()]: the first row that
    satisfies the condition, the list standing for the rows in the order in
    which the engine scans them (the query has no ORDER BY; when a single
    row satisfies the condition the order plays no role).  Column equality
    is the comparison of the strings as they are, as in Python and under the
    binary collation that SQLite and PostgreSQL use by default. *)
Definition db_exec_first (where_ : EnUserDB.t → bool)
  : handler (option EnUserDB.t) :=
  λ db, (inr (List.find where_ db), db).

Definition username_eq (v : string) (r : EnUserDB.t) : bool :=
  String.eqb (EnUserDB.username r) v.

Definition mail_eq (v : string) (r : EnUserDB.t) : bool :=
  String.eqb (EnUserDB.mail r) v.

Definition has_pk (k : Z) (r : EnUserDB.t) : bool :=
  bool_decide (EnUserDB.id r = Some k).

(** [db.get(cls, ident)]: the row with that primary key, [None] when there
    is none or when the identifier is not an integer, and an error of the
    mapper when the class is not mapped to a table. *)
Definition db_get (cls : model_class) (ident : jvalue)
  : handler (option EnUserDB.t) :=
  if is_table cls then
    match ident with
    | JInt k => λ db, (inr (List.find (has_pk k) db), db)
    | _ => ret None
    end
  else raise NoInspectionAvailable.

(** The constraints the engine checks at commit: the primary key is unique
    among the rows that have one (a key left unset is let through, which is
    the case [user_register] itself provides for), and so are [username] and
    [mail] when the columns are declared so. *)
Definition constraints_ok `{Externals} (db : Session) : bool :=
  bool_decide (NoDup (omap EnUserDB.id db))
  && (negb unique_columns
      || (bool_decide (NoDup (EnUserDB.username <$> db))
          && bool_decide (NoDup (EnUserDB.mail <$> db)))).

Definition commit `{Externals} {A} (db' : Session) (a : A) : handler A :=
  λ db, if constraints_ok db' then (inr a, db') else (inl IntegrityError, db).

(** [db.add(o); db.commit(); db.refresh(o)] for a new object: the engine
    gives the row its key. *)
Definition db_insert `{Externals} (o : EnUserDB.t) : handler EnUserDB.t :=
  λ db,
    let o' := setattr o A_id (next_key db) in
    commit (db ++ [o'])%list o' db.

Fixpoint replace_first (p : EnUserDB.t → bool) (o : EnUserDB.t)
  (db : Session) : Session :=
  match db with
  | [] => []
  | r :: db' => if p r then o :: db' else r :: replace_first p o db'
  end.

Fixpoint remove_first (p : EnUserDB.t → bool) (db : Session) : Session :=
  match db with
  | [] => []
  | r :: db' => if p r then db' else r :: remove_first p db'
  end.

Definition same_row (loaded : EnUserDB.t) (r : EnUserDB.t) : bool :=
  bool_decide (EnUserDB.id r = EnUserDB.id loaded).

(** [db.commit(); db.refresh(o)] for an object [loaded] from the session and
    changed into [o]: its row is rewritten. *)
Definition db_update `{Externals} (loaded o : EnUserDB.t)
  : handler EnUserDB.t :=
  λ db, commit (replace_first (same_row loaded) o db) o db.

(** [db.delete(o); db.commit()]. *)
Definition db_delete (loaded : EnUserDB.t) : handler unit :=
  λ db, (inr tt, remove_first (same_row loaded) db).

(** ** Methods of the models *)

(** Modelled from the spec: [get_token_information] of [users/model.py],
    "at least id and username; no password material".  On a table row it
    reads both attributes of the row. *)
Definition get_token_information (o : EnUserDB.t) : gmap string jvalue :=
  {[ "id" := match EnUserDB.id o with Some k => JInt k | None => JNull end;
     "username" := JStr (EnUserDB.username o) ]}.

(** Modelled from the spec: the same method on the request model [EnUser],
    which has no [id]: it reads the [username] the object holds.  Tokens
    without an [id] are the ones [delete_user] looks up by name. *)
Definition get_token_information_EnUser (u : EnUser.t) : gmap string jvalue :=
  {[ "username" := JStr (EnUser.username u) ]}.

(** Modelled from the spec: [EnUserDB.verify_password], "verify(password,
    storedHash)". *)
Definition verify_password `{Externals} (o : EnUserDB.t) (plain : string)
  : bool :=
  pbkdf2_sha256_verify plain (EnUserDB.password o).

(** The [EnUserDB] built from [user.model_dump()]: the fields of the
    request, every other column at its default. *)
Definition EnUserDB_of_dump (u : EnUser.t) : EnUserDB.t :=
  EnUserDB.mk None (EnUser.username u) (EnUser.mail u) (EnUser.password u)
    None None.

(** Serialisation through [response_model=EnUser]: the fields [EnUser]
    declares, read from the returned row. *)
Definition as_EnUser (o : EnUserDB.t) : EnUser.t :=
  EnUser.mk (EnUserDB.username o) (EnUserDB.mail o) (EnUserDB.password o).

(** A model instance is a plain object: [not user] is false for it. *)
Definition model_truthy (user : EnUserUpdate) : bool := true.

Definition attr_name (a : attr) : string :=
  match a with
  | A_id => "id"
  | A_username => "username"
  | A_mail => "mail"
  | A_password => "password"
  | A_date_joined => "date_joined"
  | A_last_login => "last_login"
  end.

(** ** Responses *)

Inductive response :=
| JSONResponse (message : string) (user_data : gmap string jvalue)
    (access_token : string) (token_type : string) (status_code : Z)
| JSONResponse_deleted (message : string) (user_data : gmap string jvalue)
    (token : string) (token_type : string) (status_code : Z)
| Model (body : EnUser.t).

(** ** Dictionary access and the update loop *)

(** [token_data[key]]. *)
Definition getitem (d : gmap string jvalue) (key : string) : handler jvalue :=
  match d !! key with
  | Some v => ret v
  | None => raise (KeyError key)
  end.

Definition lift {A} (r : exn + A) : handler A :=
  match r with
  | inl e => raise e
  | inr a => ret a
  end.

(** [for field, value in items: setattr(user_db, field, value)], where
    [user_db] may be [None]. *)
Fixpoint setattr_items (user_db : option EnUserDB.t) (items : list item)
  : exn + option EnUserDB.t :=
  match items with
  | [] => inr user_db
  | existT field value :: items' =>
      match user_db with
      | None => inl (AttributeError (attr_name field))
      | Some o => setattr_items (Some (setattr o field value)) items'
      end
  end.

(** [db.commit(); db.refresh(user_db)] at the end of [update_user]. *)
Definition commit_refresh `{Externals} (loaded user_db : option EnUserDB.t)
  : handler EnUserDB.t :=
  match loaded, user_db with
  | Some l, Some o => db_update l o
  | _, _ => raise UnmappedInstanceError
  end.

Definition username_is (v : jvalue) (r : EnUserDB.t) : bool :=
  match v with
  | JStr s => username_eq s r
  | _ => false
  end.

(** ** The handlers *)

Section Handlers.
Context `{Externals}.

(** [now] is the value of [datetime.now()] during the request. *)
Variable now : Z.

Definition user_login (username password : string) : handler response :=
  let! user_db := db_exec_first (username_eq username) in
  match user_db with
  | None => raise (HTTPException HTTP_404_NOT_FOUND "User not found.")
  | Some user_db =>
      if verify_password user_db password then
        let! user_db :=
          db_update user_db (setattr user_db A_last_login (Some now)) in
        let token := jwt_encode (get_token_information user_db) in
        ret (JSONResponse "User login successful."
               (get_token_information user_db) token "bearer" HTTP_200_OK)
      else
        raise (HTTPException HTTP_401_UNAUTHORIZED "Password incorrect.")
  end.

Definition user_register (user : EnUser.t) : handler response :=
  let! results := db_exec_first (username_eq (EnUser.username user)) in
  match results with
  | Some _ =>
      raise (HTTPException HTTP_409_CONFLICT "User already exists.")
  | None =>
      let! results := db_exec_first (mail_eq (EnUser.mail user)) in
      match results with
      | Some _ =>
          raise (HTTPException HTTP_409_CONFLICT "Mail already in use.")
      | None =>
          let db_user := EnUserDB_of_dump user in
          let db_user :=
            setattr db_user A_username (str_lower (EnUser.username user)) in
          let db_user :=
            setattr db_user A_password
              (pbkdf2_sha256_hash (EnUser.password user)) in
          let db_user := setattr db_user A_date_joined (Some now) in
          let! db_user := db_insert db_user in
          match EnUserDB.id db_user with
          | Some _ =>
              let token := jwt_encode (get_token_information_EnUser user) in
              ret (JSONResponse "User created."
                     (get_token_information_EnUser user) token "bearer"
                     HTTP_200_OK)
          | None =>
              raise (HTTPException HTTP_404_NOT_FOUND
                       "User registration failed.")
          end
      end
  end.

Definition user_read (token : string) : handler response :=
  let! token_data :=
    (if String.eqb token "" then
       raise (HTTPException HTTP_401_UNAUTHORIZED "Not authenticated.")
     else lift (decode_token token)) in
  let! ident := getitem token_data "id" in
  let! user := db_get EnUserDB_class ident in
  match user with
  | None => raise (HTTPException HTTP_404_NOT_FOUND "User not found.")
  | Some user => ret (Model (as_EnUser user))
  end.

Definition update_user (token : string) (user : EnUserUpdate)
  : handler response :=
  let! token_data := lift (decode_token token) in
  let! ident := getitem token_data "id" in
  let! user_db := db_get EnUserDB_class ident in
  if negb (model_truthy user) then
    raise (HTTPException HTTP_404_NOT_FOUND "User not found.")
  else
    let! changed := lift (setattr_items user_db user) in
    let! user_db := commit_refresh user_db changed in
    ret (Model (as_EnUser user_db)).

Definition delete_user (token : string) : handler response :=
  let! token_data := lift (decode_token token) in
  let! user :=
    (match token_data !! "id" with
     | None =>
         let! name := getitem token_data "username" in
         db_exec_first (username_is name)
     | Some ident => db_get EnUser_class ident
     end) in
  match user with
  | None => raise (HTTPException HTTP_404_NOT_FOUND "User not found.")
  | Some user =>
      let! _ := db_delete user in
      ret (JSONResponse_deleted "User was successfully deleted."
             (get_token_information user) token "bearer" HTTP_200_OK)
  end.

End Handlers.

(** The object [user_register] hands to the session: the request's fields
    with the name in lower case, the password hashed and the date set. *)
Definition new_account `{Externals} (now : Z) (user : EnUser.t) : EnUserDB.t :=
  EnUserDB.mk None (str_lower (EnUser.username user)) (EnUser.mail user)
    (pbkdf2_sha256_hash (EnUser.password user)) (Some now) None.

(** ** A concrete environment

    An instance of the collaborators on which the handlers can be run: a
    transparent stand-in for the hasher and the codec, and an engine with an
    auto-incremented key and no unique constraint on [username] and [mail]. *)

Definition demo_hash (plain : string) : string := "$pbkdf2-sha256$" ++ plain.

Definition demo_verify (plain hashed : string) : bool :=
  String.eqb hashed (demo_hash plain).

Fixpoint split_dot (s : string) : string * string :=
  match s with
  | EmptyString => (EmptyString, EmptyString)
  | String c s' =>
      if Ascii.eqb c "."%char then (EmptyString, s')
      else let '(a, b) := split_dot s' in (String c a, b)
  end.

Definition demo_encode (claims : gmap string jvalue) : string :=
  let name := match claims !! "username" with Some (JStr u) => u | _ => "" end in
  match claims !! "id" with
  | Some (JInt k) => NilZero.string_of_int (Z.to_int k) ++ "." ++ name
  | _ => "." ++ name
  end.

Definition demo_decode (token : string) : exn + gmap string jvalue :=
  let '(key, name) := split_dot token in
  if String.eqb key "" then inr {[ "username" := JStr name ]}
  else
    match NilZero.int_of_string key with
    | Some k => inr {[ "id" := JInt (Z.of_int k); "username" := JStr name ]}
    | None => inl (HTTPException HTTP_401_UNAUTHORIZED "Invalid token.")
    end.

Definition autoincrement (db : list EnUserDB.t) : option Z :=
  Some (1 + foldr Z.max 0 (omap EnUserDB.id db)).

Definition demo : Externals := {|
  str_lower := lower;
  pbkdf2_sha256_hash := demo_hash;
  pbkdf2_sha256_verify := demo_verify;
  jwt_encode := demo_encode;
  decode_token := demo_decode;
  next_key := autoincrement;
  unique_columns := false;
|}.

(** An engine that leaves the key of a new row unset and one that declares
    the unique constraints, otherwise as [demo]. *)
Definition demo_keyless : Externals := {|
  str_lower := lower;
  pbkdf2_sha256_hash := demo_hash;
  pbkdf2_sha256_verify := demo_verify;
  jwt_encode := demo_encode;
  decode_token := demo_decode;
  next_key := λ _, None;
  unique_columns := false;
|}.

Definition demo_unique : Externals := {|
  str_lower := lower;
  pbkdf2_sha256_hash := demo_hash;
  pbkdf2_sha256_verify := demo_verify;
  jwt_encode := demo_encode;
  decode_token := demo_decode;
  next_key := autoincrement;
  unique_columns := true;
|}.

(** The row [register("Alice", "a@x.com", "pw1")] leaves in an empty store
    at time 100, and the claims a login issues for it. *)
Definition alice : EnUserDB.t :=
  EnUserDB.mk (Some 1) "alice" "a@x.com" (demo_hash "pw1") (Some 100) None.

Definition bob : EnUserDB.t :=
  EnUserDB.mk (Some 1) "bob" "b@x.com" (demo_hash "pw") (Some 100) None.

(** The requests, claims and payload of the scenarios. *)
Definition alice_request : EnUser.t := EnUser.mk "Alice" "a@x.com" "pw1".

Definition bob_again : EnUser.t := EnUser.mk "BOB" "other@x.com" "pw2".

Definition alice_claims : gmap string jvalue :=
  {[ "id" := JInt 1; "username" := JStr "alice" ]}.

Definition new_mail : EnUserUpdate := [existT A_mail "a2@x.com" : item].

(** * Properties *)

(** ** Attributes *)

Lemma getattr_setattr_eq (o : EnUserDB.t) (a : attr) (v : attr_type a) :
  getattr (setattr o a v) a = v.
Proof. by destruct a. Qed.

Lemma getattr_setattr_ne (o : EnUserDB.t) (a b : attr) (v : attr_type b) :
  a ≠ b → getattr (setattr o b v) a = getattr o a.
Proof. destruct a, b; simpl; congruence. Qed.

Lemma setattr_items_Some (o : EnUserDB.t) (items : list item) :
  ∃ o', setattr_items (Some o) items = inr (Some o').
Proof.
  revert o. induction items as [|[field value] items IH]; intros o; simpl.
  - by exists o.
  - apply IH.
Qed.

(** The loop leaves alone every attribute that no item names. *)
Lemma setattr_items_frame (items : list item) (o o' : EnUserDB.t) (a : attr) :
  setattr_items (Some o) items = inr (Some o') →
  a ∉ item_field <$> items →
  getattr o' a = getattr o a.
Proof.
  revert o. induction items as [|[field value] items IH]; simpl; intros o Hrun Ha.
  - congruence.
  - apply not_elem_of_cons in Ha as [Hne Ha].
    rewrite (IH _ Hrun Ha). by apply getattr_setattr_ne.
Qed.

Lemma setattr_items_None (items : list item) :
  setattr_items None items =
    match items with
    | [] => inr None
    | i :: _ => inl (AttributeError (attr_name (item_field i)))
    end.
Proof. by destruct items as [|[field value] items]. Qed.

(** ** Rows of the table *)

Lemma find_has_pk (k : Z) (db : Session) (r : EnUserDB.t) :
  List.find (has_pk k) db = Some r → EnUserDB.id r = Some k.
Proof.
  intros Hfind. apply List.find_some in Hfind as [_ Hpk].
  unfold has_pk in Hpk. by apply bool_decide_eq_true in Hpk.
Qed.

(** Rewriting the first row that satisfies [p] is an update in place, at the
    position where [find] met that row. *)
Lemma replace_first_insert (p : EnUserDB.t → bool) (o r : EnUserDB.t)
  (db : Session) :
  List.find p db = Some r →
  ∃ i : nat, db !! i = Some r ∧ replace_first p o db = <[i:=o]> db.
Proof.
  induction db as [|r0 db IH]; simpl; [done|].
  destruct (p r0) eqn:Hp.
  - intros [= ->]. by exists 0%nat.
  - intros Hfind. destruct (IH Hfind) as (i & Hi & Hrep).
    exists (S i). simpl. by rewrite Hrep.
Qed.

Lemma find_none_remove_first (p q : EnUserDB.t → bool) (db : Session) :
  List.find p db = None → List.find p (remove_first q db) = None.
Proof.
  induction db as [|r db IH]; simpl; [done|].
  destruct (p r) eqn:Hp; [done|]. intros Hfind.
  destruct (q r); simpl; [done|]. rewrite Hp. by apply IH.
Qed.

Lemma same_row_has_pk (k : Z) (loaded : EnUserDB.t) :
  EnUserDB.id loaded = Some k → same_row loaded = has_pk k.
Proof. intros Hid. unfold same_row, has_pk. by rewrite Hid. Qed.

(** ** [update_user] on an existing account *)

(** With a decodable token whose [id] is the key of a stored row, the
    handler runs the loop on that row and commits the outcome in its place. *)
Lemma update_user_found `{Externals} (token : string)
  (token_data : gmap string jvalue) (k : Z) (user : EnUserUpdate)
  (loaded : EnUserDB.t) (db : Session) :
  decode_token token = inr token_data →
  token_data !! "id" = Some (JInt k) →
  List.find (has_pk k) db = Some loaded →
  ∃ (o : EnUserDB.t) (i : nat),
    setattr_items (Some loaded) user = inr (Some o)
    ∧ db !! i = Some loaded
    ∧ update_user token user db =
        if constraints_ok (<[i:=o]> db)
        then (inr (Model (as_EnUser o)), <[i:=o]> db)
        else (inl IntegrityError, db).
Proof.
  intros Hdecode Hid Hfind.
  destruct (setattr_items_Some loaded user) as [o Ho].
  destruct (replace_first_insert (has_pk k) o loaded db Hfind) as (i & Hi & Hrep).
  exists o, i. split_and!; [done..|].
  unfold update_user, bind, lift, getitem.
  rewrite Hdecode. simpl. rewrite Hid. simpl. rewrite Hfind, Ho. simpl.
  unfold db_update, commit.
  rewrite (same_row_has_pk k) by by eapply find_has_pk.
  rewrite Hrep. by destruct (constraints_ok _).
Qed.




(** ** [user_register] *)

(** What [user_register] does once both look-ups have found nothing. *)
Lemma user_register_fresh `{Externals} (now : Z) (user : EnUser.t)
  (db : Session) :
  List.find (username_eq (EnUser.username user)) db = None →
  List.find (mail_eq (EnUser.mail user)) db = None →
  user_register now user db =
    match db_insert (new_account now user) db with
    | (inl e, db') => (inl e, db')
    | (inr o, db') =>
        match EnUserDB.id o with
        | Some _ =>
            (inr (JSONResponse "User created."
                    (get_token_information_EnUser user)
                    (jwt_encode (get_token_information_EnUser user))
                    "bearer" HTTP_200_OK), db')
        | None =>
            (inl (HTTPException HTTP_404_NOT_FOUND
                    "User registration failed."), db')
        end
    end.
Proof.
  intros Hname Hmail. unfold user_register, bind, db_exec_first.
  rewrite Hname, Hmail. simpl.
  unfold new_account.
  destruct (db_insert _ db) as [[e|o] db']; [done|].
  by destruct (EnUserDB.id o).
Qed.

(** A response of [user_register] is always the one built after a
    successful insertion. *)
Lemma user_register_returns `{Externals} (now : Z) (user : EnUser.t)
  (db db' : Session) (resp : response) :
  user_register now user db = (inr resp, db') →
  List.find (username_eq (EnUser.username user)) db = None
  ∧ List.find (mail_eq (EnUser.mail user)) db = None.
Proof.
  unfold user_register, bind, db_exec_first, raise.
  destruct (List.find (username_eq _) db); [done|].
  by destruct (List.find (mail_eq _) db).
Qed.

(** C10.  Besides the two conflicts, [user_register] fails when the commit
    went through but left the new row without a key: the answer is then the
    404 "User registration failed.", and no token.  Conversely a response
    (and with it the token and the claims) is produced only when the
    inserted row received a key. *)
Theorem user_register_key_unset `{Externals} (now : Z) (user : EnUser.t)
  (db : Session) :
  (∀ (o : EnUserDB.t) (db' : Session),
     List.find (username_eq (EnUser.username user)) db = None →
     List.find (mail_eq (EnUser.mail user)) db = None →
     db_insert (new_account now user) db = (inr o, db') →
     EnUserDB.id o = None →
     user_register now user db =
       (inl (HTTPException HTTP_404_NOT_FOUND "User registration failed."),
        db'))
  ∧ (∀ (resp : response) (db' : Session),
       user_register now user db = (inr resp, db') →
       ∃ (o : EnUserDB.t) (k : Z),
         db_insert (new_account now user) db = (inr o, db')
         ∧ EnUserDB.id o = Some k
         ∧ resp = JSONResponse "User created."
                    (get_token_information_EnUser user)
                    (jwt_encode (get_token_information_EnUser user))
                    "bearer" HTTP_200_OK).
Proof.
  split.
  - intros o db' Hname Hmail Hins Hid.
    rewrite user_register_fresh by done. by rewrite Hins, Hid.
  - intros resp db' Hrun.
    destruct (user_register_returns _ _ _ _ _ Hrun) as [Hname Hmail].
    rewrite user_register_fresh in Hrun by done.
    destruct (db_insert (new_account now user) db) as [[e|o] db0]; [done|].
    destruct (EnUserDB.id o) as [k|] eqn:Hid; [|done].
    injection Hrun as <- <-. by exists o, k.
Qed.

Lemma user_register_key_unset_witness :
  @user_register demo_keyless 100 alice_request [] =
    (inl (HTTPException HTTP_404_NOT_FOUND "User registration failed."),
     [EnUserDB.mk None "alice" "a@x.com" (demo_hash "pw1") (Some 100) None])
  ∧ ∃ (o : EnUserDB.t) (k : Z),
      @db_insert demo (@new_account demo 100 alice_request) [] = (inr o, [alice])
      ∧ EnUserDB.id o = Some k
      ∧ JSONResponse "User created." {[ "username" := JStr "Alice" ]}
          ".Alice" "bearer" 200 =
        JSONResponse "User created."
          (get_token_information_EnUser alice_request)
          (@jwt_encode demo (get_token_information_EnUser alice_request))
          "bearer" HTTP_200_OK.
Proof.
  split.
  - apply (proj1 (@user_register_key_unset demo_keyless 100 alice_request [])
             (EnUserDB.mk None "alice" "a@x.com" (demo_hash "pw1") (Some 100) None));
      reflexivity.
  - apply (proj2 (@user_register_key_unset demo 100 alice_request [])).
    reflexivity.
Defined.

(** C1.  The token of a registration is made from the request, not from the
    stored account.  Registering "Alice" in an empty store answers with a
    token that decodes to the claims [{username: "Alice"}], while the account
    is stored under the name "alice" with the key 1: the claims carry no
    [id] and another [username] than the account.  ([user_login], in
    contrast, encodes the claims of the row.) *)
Theorem user_register_claims_of_request :
  ∃ (user_data : gmap string jvalue) (token : string) (stored : EnUserDB.t),
    @user_register demo 100 alice_request [] =
      (inr (JSONResponse "User created." user_data token "bearer" HTTP_200_OK),
       [stored])
    ∧ @decode_token demo token = inr user_data
    ∧ user_data !! "username" = Some (JStr "Alice")
    ∧ user_data !! "id" = None
    ∧ EnUserDB.username stored = "alice"
    ∧ EnUserDB.id stored = Some 1.
Proof.
  exists {[ "username" := JStr "Alice" ]}, ".Alice", alice.
  split_and!; reflexivity.
Qed.

(** C2.  The look-up of [user_register] compares the name as it was sent
    with names that were stored in lower case.  After "bob" has registered,
    a registration as "BOB" is never answered with a 409, whatever the
    environment; without unique columns a second account named "bob" is
    created, with them the commit fails with an error of the engine that the
    handler does not catch. *)
Theorem user_register_other_casing :
  (∀ (E : Externals) (now : Z) (detail : string),
     (@user_register E now bob_again [bob]).1
       ≠ inl (HTTPException HTTP_409_CONFLICT detail))
  ∧ @user_register demo 200 bob_again [bob] =
      (inr (JSONResponse "User created." {[ "username" := JStr "BOB" ]}
              ".BOB" "bearer" HTTP_200_OK),
       [bob;
        EnUserDB.mk (Some 2) "bob" "other@x.com" (demo_hash "pw2")
          (Some 200) None])
  ∧ @user_register demo_unique 200 bob_again [bob] =
      (inl IntegrityError, [bob]).
Proof.
  split_and!; [|reflexivity..].
  intros E now detail.
  rewrite user_register_fresh by reflexivity.
  unfold db_insert, commit.
  destruct (constraints_ok _); [|done].
  simpl. by destruct (next_key [bob]).
Qed.

(** ** [user_login] *)

(** [user_login] in one equation: the look-up is by the name exactly as it
    was typed. *)
Lemma user_login_exact `{Externals} (now : Z) (username password : string)
  (db : Session) :
  user_login now username password db =
    match List.find (username_eq username) db with
    | None => (inl (HTTPException HTTP_404_NOT_FOUND "User not found."), db)
    | Some user_db =>
        if pbkdf2_sha256_verify password (EnUserDB.password user_db) then
          let o := setattr user_db A_last_login (Some now) in
          let db' := replace_first (same_row user_db) o db in
          if constraints_ok db' then
            (inr (JSONResponse "User login successful."
                    (get_token_information o)
                    (jwt_encode (get_token_information o))
                    "bearer" HTTP_200_OK), db')
          else (inl IntegrityError, db)
        else
          (inl (HTTPException HTTP_401_UNAUTHORIZED "Password incorrect."), db)
    end.
Proof.
  unfold user_login, bind, db_exec_first, verify_password.
  destruct (List.find _ db) as [user_db|]; [|done].
  destruct (pbkdf2_sha256_verify _ _); [|done].
  unfold db_update, commit. simpl.
  by destruct (constraints_ok _).
Qed.

(** C8.  The look-up of [user_login] is not case-insensitive.  With the
    account "alice" stored, the name "Alice" (equal to it up to case) is
    answered with the 404 "User not found.", with the right password, where a
    token is due, and with a wrong one, where the 401 is due; the lower-case
    name is served as the claim says. *)
Theorem user_login_other_casing :
  lower "Alice" = lower (EnUserDB.username alice)
  ∧ @user_login demo 200 "Alice" "pw1" [alice] =
      (inl (HTTPException HTTP_404_NOT_FOUND "User not found."), [alice])
  ∧ @user_login demo 200 "Alice" "secret" [alice] =
      (inl (HTTPException HTTP_404_NOT_FOUND "User not found."), [alice])
  ∧ @user_login demo 200 "alice" "secret" [alice] =
      (inl (HTTPException HTTP_401_UNAUTHORIZED "Password incorrect."),
       [alice])
  ∧ @user_login demo 200 "alice" "pw1" [alice] =
      (inr (JSONResponse "User login successful." alice_claims "1.alice"
              "bearer" HTTP_200_OK),
       [setattr alice A_last_login (Some 200)]).
Proof. split_and!; reflexivity. Qed.

(** ** [user_read] *)

Lemma user_read_valid `{Externals} (token : string)
  (token_data : gmap string jvalue) (k : Z) (db : Session) :
  token ≠ "" →
  decode_token token = inr token_data →
  token_data !! "id" = Some (JInt k) →
  user_read token db =
    match List.find (has_pk k) db with
    | None => (inl (HTTPException HTTP_404_NOT_FOUND "User not found."), db)
    | Some user => (inr (Model (as_EnUser user)), db)
    end.
Proof.
  intros Htoken Hdecode Hid. unfold user_read, bind, lift, getitem.
  apply String.eqb_neq in Htoken. rewrite Htoken, Hdecode. simpl.
  rewrite Hid. simpl. by destruct (List.find _ db).
Qed.

(** The body of a [user_read] response carries the [password] column. *)
Lemma as_EnUser_password (o : EnUserDB.t) :
  EnUser.password (as_EnUser o) = EnUserDB.password o.
Proof. done. Qed.

(** C3.  [user_read] serialises the row through [response_model=EnUser], and
    [EnUser] declares [password]: for the token of "alice" the response body
    holds, in its [password] field, the hash stored for the account. *)
Theorem user_read_exposes_password_hash :
  ∃ body : EnUser.t,
    @user_read demo "1.alice" [alice] = (inr (Model body), [alice])
    ∧ EnUser.password body = EnUserDB.password alice
    ∧ EnUserDB.password alice = @pbkdf2_sha256_hash demo "pw1".
Proof. exists (as_EnUser alice). split_and!; reflexivity. Qed.

(** ** [update_user] with a password, and without an account *)

(** In every environment a [password] item reaches the column as it was
    sent. *)
Lemma update_user_password_item `{Externals} (token : string)
  (token_data : gmap string jvalue) (k : Z) (plain : string)
  (loaded : EnUserDB.t) (db : Session) :
  decode_token token = inr token_data →
  token_data !! "id" = Some (JInt k) →
  List.find (has_pk k) db = Some loaded →
  ∃ (o : EnUserDB.t) (i : nat),
    EnUserDB.password o = plain
    ∧ db !! i = Some loaded
    ∧ update_user token [existT A_password plain : item] db =
        if constraints_ok (<[i:=o]> db)
        then (inr (Model (as_EnUser o)), <[i:=o]> db)
        else (inl IntegrityError, db).
Proof.
  intros Hdecode Hid Hfind.
  destruct (update_user_found token token_data k
              [existT A_password plain : item] loaded db)
    as (o & i & Ho & Hi & Hrun); [done..|].
  exists o, i. split_and!; [|done..].
  simpl in Ho. by injection Ho as <-.
Qed.

(** C4.  [update_user] copies a [password] item into the row as it is: after
    an update with the password "newpw" the column holds "newpw", which is
    not the hasher's output for it ([user_register] does hash). *)
Theorem update_user_password_raw :
  @update_user demo "1.alice" [existT A_password "newpw" : item] [alice] =
    (inr (Model (EnUser.mk "alice" "a@x.com" "newpw")),
     [setattr alice A_password "newpw"])
  ∧ EnUserDB.password (setattr alice A_password "newpw") = "newpw"
  ∧ "newpw" ≠ @pbkdf2_sha256_hash demo "newpw".
Proof. split_and!; [reflexivity..|done]. Qed.

Lemma setattr_items_error (user_db : option EnUserDB.t) (items : list item)
  (e : exn) :
  setattr_items user_db items = inl e → ∃ name, e = AttributeError name.
Proof.
  destruct user_db as [o|].
  - destruct (setattr_items_Some o items) as [o' ->]. done.
  - rewrite setattr_items_None. destruct items; [done|].
    intros [= <-]. eauto.
Qed.

(** With a token that decodes, no path of [update_user] raises the 404: the
    test before the loop looks at the payload, which is never false. *)
Lemma update_user_never_404 `{Externals} (token : string)
  (token_data : gmap string jvalue) (user : EnUserUpdate) (db : Session)
  (detail : string) :
  decode_token token = inr token_data →
  (update_user token user db).1
    ≠ inl (HTTPException HTTP_404_NOT_FOUND detail).
Proof.
  intros Hdecode. unfold update_user, bind, lift, getitem.
  rewrite Hdecode. simpl.
  destruct (token_data !! "id") as [ident|]; simpl; [|done].
  assert (∀ user_db : option EnUserDB.t,
    (let (s, db') := lift (setattr_items user_db user) db in
     match s with
     | inl e => (inl e, db')
     | inr a =>
         let (s0, db'0) := commit_refresh user_db a db' in
         match s0 with
         | inl e => (inl e, db'0)
         | inr a0 => ret (Model (as_EnUser a0)) db'0
         end
     end).1 ≠ inl (HTTPException HTTP_404_NOT_FOUND detail)) as Hloop.
  { intros user_db. unfold lift.
    destruct (setattr_items user_db user) as [e|changed] eqn:Hitems; simpl.
    - by destruct (setattr_items_error _ _ _ Hitems) as [name ->].
    - unfold commit_refresh, db_update, commit.
      destruct user_db as [l|], changed as [o|]; simpl; try done.
      by destruct (constraints_ok _). }
  destruct ident as [|k|s]; simpl; apply Hloop.
Qed.

(** C6.  With a token whose [id] matches no account, [update_user] does not
    answer 404: [user_db] is [None], the first [setattr] raises an
    [AttributeError], and with an empty payload the [refresh] raises.
    ([user_read] tests the row it loaded; [update_user] tests the payload.) *)
Theorem update_user_missing_account :
  @decode_token demo "1.alice" = inr alice_claims
  ∧ @update_user demo "1.alice" new_mail [] = (inl (AttributeError "mail"), [])
  ∧ @update_user demo "1.alice" [] [] = (inl UnmappedInstanceError, []).
Proof. split_and!; reflexivity. Qed.

(** ** [delete_user] *)

(** A token without an [id]: the account is looked up by the claim's name,
    removed, and echoed with the token. *)
Lemma delete_user_by_username `{Externals} (token : string)
  (token_data : gmap string jvalue) (name : string) (db : Session) :
  decode_token token = inr token_data →
  token_data !! "id" = None →
  token_data !! "username" = Some (JStr name) →
  delete_user token db =
    match List.find (username_eq name) db with
    | None => (inl (HTTPException HTTP_404_NOT_FOUND "User not found."), db)
    | Some user =>
        (inr (JSONResponse_deleted "User was successfully deleted."
                (get_token_information user) token "bearer" HTTP_200_OK),
         remove_first (same_row user) db)
    end.
Proof.
  intros Hdecode Hid Hname. unfold delete_user, bind, lift, getitem.
  rewrite Hdecode. simpl. rewrite Hid, Hname. simpl.
  by destruct (List.find _ db).
Qed.

(** A token with an [id]: the look-up names [EnUser], which is no table. *)
Lemma delete_user_by_id `{Externals} (token : string)
  (token_data : gmap string jvalue) (ident : jvalue) (db : Session) :
  decode_token token = inr token_data →
  token_data !! "id" = Some ident →
  delete_user token db = (inl NoInspectionAvailable, db).
Proof.
  intros Hdecode Hid. unfold delete_user, bind, lift.
  rewrite Hdecode. simpl. by rewrite Hid.
Qed.

(** C7.  For a token whose claims contain an [id], [delete_user] does not
    resolve the account: it calls [db.get] on [EnUser] where [user_read] and
    [update_user] name [EnUserDB], the mapper refuses the class, and the
    account of "alice" is still stored after the call.  The look-up by name,
    for a token without [id], deletes and echoes as the claim says. *)
Theorem delete_user_with_id_raises :
  @decode_token demo "1.alice" = inr alice_claims
  ∧ alice_claims !! "id" = Some (JInt 1)
  ∧ @delete_user demo "1.alice" [alice] = (inl NoInspectionAvailable, [alice])
  ∧ @delete_user demo ".alice" [alice] =
      (inr (JSONResponse_deleted "User was successfully deleted."
              alice_claims ".alice" "bearer" HTTP_200_OK), []).
Proof. split_and!; reflexivity. Qed.

(** ** After a deletion *)

Lemma find_has_pk_None (k : Z) (db : Session) :
  k ∉ omap EnUserDB.id db → List.find (has_pk k) db = None.
Proof.
  intros Hk. destruct (List.find (has_pk k) db) as [r|] eqn:Hfind; [|done].
  destruct Hk. apply List.find_some in Hfind as [Hin Hpk].
  apply bool_decide_eq_true in Hpk.
  apply list_elem_of_omap. exists r. by rewrite list_elem_of_In.
Qed.

(** Deleting the row loaded for a key leaves no row with that key, when keys
    are unique. *)
Lemma find_remove_first (k : Z) (loaded : EnUserDB.t) (db : Session) :
  NoDup (omap EnUserDB.id db) →
  List.find (has_pk k) db = Some loaded →
  List.find (has_pk k) (remove_first (same_row loaded) db) = None.
Proof.
  intros Hdup Hfind.
  rewrite (same_row_has_pk k) by by eapply find_has_pk.
  clear loaded Hfind.
  induction db as [|r db IH]; simpl in *; [done|].
  destruct (has_pk k r) eqn:Hpk.
  - apply bool_decide_eq_true in Hpk. rewrite Hpk in Hdup.
    apply NoDup_cons in Hdup as [Hk _]. by apply find_has_pk_None.
  - simpl. rewrite Hpk. apply IH.
    destruct (EnUserDB.id r); [by apply NoDup_cons in Hdup as [_ ?]|done].
Qed.

(** In a table with unique keys, once the row of the token's key has been
    deleted, [user_read] with that token answers 404. *)
Lemma user_read_deleted `{Externals} (token : string)
  (token_data : gmap string jvalue) (k : Z) (loaded : EnUserDB.t)
  (db db' : Session) :
  token ≠ "" →
  decode_token token = inr token_data →
  token_data !! "id" = Some (JInt k) →
  NoDup (omap EnUserDB.id db) →
  List.find (has_pk k) db = Some loaded →
  db_delete loaded db = (inr tt, db') →
  user_read token db' =
    (inl (HTTPException HTTP_404_NOT_FOUND "User not found."), db').
Proof.
  intros Htoken Hdecode Hid Hdup Hfind [= <-].
  rewrite (user_read_valid token token_data k) by done.
  by rewrite find_remove_first.
Qed.

(** C9.  After the account of "alice" has been deleted, the token issued for
    it at login still decodes, and [user_read] answers 404 with it; but
    [update_user] with the same token raises an [AttributeError] instead of
    the 404: the test for a missing account looks at the payload, not at
    the row. *)
Theorem update_user_after_delete :
  ∃ (deleted : response) (db' : Session),
    @delete_user demo ".alice" [alice] = (inr deleted, db')
    ∧ List.find (username_eq "alice") db' = None
    ∧ @decode_token demo "1.alice" = inr alice_claims
    ∧ @user_read demo "1.alice" db' =
        (inl (HTTPException HTTP_404_NOT_FOUND "User not found."), db')
    ∧ @update_user demo "1.alice" new_mail db' =
        (inl (AttributeError "mail"), db').
Proof.
  exists (JSONResponse_deleted "User was successfully deleted."
            alice_claims ".alice" "bearer" HTTP_200_OK), [].
  split_and!; reflexivity.
Qed.

(** * Further properties of the handlers *)

(** ** Look-ups in the table *)

Lemma find_Some_elem (p : EnUserDB.t → bool) (db : Session) (r : EnUserDB.t) :
  List.find p db = Some r → r ∈ db ∧ p r = true.
Proof.
  intros Hfind. apply List.find_some in Hfind as [Hin Hp].
  by rewrite list_elem_of_In.
Qed.

Lemma find_elem_is_Some (p : EnUserDB.t → bool) (db : Session)
  (r : EnUserDB.t) :
  r ∈ db → p r = true → is_Some (List.find p db).
Proof.
  intros Hin Hp. destruct (List.find p db) eqn:Hfind; [by eexists|].
  apply list_elem_of_In in Hin.
  pose proof (List.find_none _ _ Hfind _ Hin). congruence.
Qed.

Lemma find_None_elem (p : EnUserDB.t → bool) (db : Session) :
  (∀ r, r ∈ db → p r = false) → List.find p db = None.
Proof.
  intros Hall. destruct (List.find p db) as [r|] eqn:Hfind; [|done].
  apply find_Some_elem in Hfind as [Hin Hp].
  rewrite (Hall r Hin) in Hp. done.
Qed.

Lemma find_app_None (p : EnUserDB.t → bool) (db : Session) (o : EnUserDB.t) :
  List.find p db = None →
  List.find p (db ++ [o])%list = if p o then Some o else None.
Proof.
  induction db as [|r db IH]; simpl; [done|].
  destruct (p r); [done|]. apply IH.
Qed.

Lemma username_eq_true (v : string) (r : EnUserDB.t) :
  username_eq v r = true ↔ EnUserDB.username r = v.
Proof. unfold username_eq. apply String.eqb_eq. Qed.

Lemma mail_eq_true (v : string) (r : EnUserDB.t) :
  mail_eq v r = true ↔ EnUserDB.mail r = v.
Proof. unfold mail_eq. apply String.eqb_eq. Qed.

Lemma same_row_refl (r : EnUserDB.t) : same_row r r = true.
Proof. unfold same_row. by apply bool_decide_eq_true. Qed.

(** With unique keys, looking a stored row up by its own key meets that
    very row. *)
Lemma find_same_row (db : Session) (r : EnUserDB.t) :
  NoDup (EnUserDB.id <$> db) → r ∈ db →
  List.find (same_row r) db = Some r.
Proof.
  induction db as [|r0 db IH]; simpl; intros Hdup Hin.
  - by apply elem_of_nil in Hin.
  - apply NoDup_cons in Hdup as [Hfresh Hdup].
    destruct (same_row r r0) eqn:Hsame.
    + apply bool_decide_eq_true in Hsame.
      apply elem_of_cons in Hin as [->|Hin]; [done|].
      destruct Hfresh. rewrite Hsame. apply list_elem_of_fmap. eauto.
    + apply elem_of_cons in Hin as [->|Hin]; [|by apply IH].
      by rewrite same_row_refl in Hsame.
Qed.

(** Removing the first row that satisfies [p] deletes the position where
    [find] met it. *)
Lemma remove_first_delete (p : EnUserDB.t → bool) (r : EnUserDB.t)
  (db : Session) :
  List.find p db = Some r →
  ∃ i : nat, db !! i = Some r ∧ remove_first p db = delete i db.
Proof.
  induction db as [|r0 db IH]; simpl; [done|].
  destruct (p r0) eqn:Hp.
  - intros [= ->]. by exists 0%nat.
  - intros Hfind. destruct (IH Hfind) as (i & Hi & Hrem).
    exists (S i). simpl. by rewrite Hrem.
Qed.

(** Rewriting a row without touching its key, name and mail keeps the
    columns the constraints look at. *)
Lemma insert_same_columns (db : Session) (i : nat) (r o : EnUserDB.t) :
  db !! i = Some r →
  EnUserDB.id o = EnUserDB.id r →
  EnUserDB.username o = EnUserDB.username r →
  EnUserDB.mail o = EnUserDB.mail r →
  EnUserDB.id <$> <[i:=o]> db = EnUserDB.id <$> db
  ∧ EnUserDB.username <$> <[i:=o]> db = EnUserDB.username <$> db
  ∧ EnUserDB.mail <$> <[i:=o]> db = EnUserDB.mail <$> db.
Proof.
  intros Hi Hid Hname Hmail. unfold Session in *.
  rewrite !list_fmap_insert, Hid, Hname, Hmail.
  split_and!; apply list_insert_id; by rewrite list_lookup_fmap, Hi.
Qed.

Lemma omap_id_fmap (db : Session) :
  omap EnUserDB.id db = omap id (EnUserDB.id <$> db).
Proof.
  induction db as [|r db IH]; csimpl; [done|].
  destruct (EnUserDB.id r); csimpl; by rewrite IH.
Qed.

Lemma constraints_ok_columns `{Externals} (db1 db2 : Session) :
  EnUserDB.id <$> db1 = EnUserDB.id <$> db2 →
  EnUserDB.username <$> db1 = EnUserDB.username <$> db2 →
  EnUserDB.mail <$> db1 = EnUserDB.mail <$> db2 →
  constraints_ok db1 = constraints_ok db2.
Proof.
  intros Hid Hname Hmail. unfold constraints_ok.
  by rewrite (omap_id_fmap db1), (omap_id_fmap db2), Hid, Hname, Hmail.
Qed.

(** ** Registration: conflicts, the stored row, failures *)

Lemma user_register_success `{Externals} (now : Z) (user : EnUser.t)
  (db db' : Session) (resp : response) :
  user_register now user db = (inr resp, db') →
  ∃ k : Z,
    next_key db = Some k
    ∧ db' = (db ++ [setattr (new_account now user) A_id (Some k)])%list
    ∧ constraints_ok db' = true
    ∧ List.find (username_eq (EnUser.username user)) db = None
    ∧ List.find (mail_eq (EnUser.mail user)) db = None.
Proof.
  intros Hrun.
  destruct (user_register_returns _ _ _ _ _ Hrun) as [Hname Hmail].
  rewrite user_register_fresh in Hrun by done.
  unfold db_insert, commit in Hrun.
  destruct (constraints_ok _) eqn:Hok; [|done].
  destruct (next_key db) as [k|] eqn:Hkey; simpl in Hrun; [|done].
  injection Hrun as _ <-. by exists k.
Qed.

Lemma user_register_name_taken `{Externals} (now : Z) (user : EnUser.t)
  (db : Session) (r : EnUserDB.t) :
  r ∈ db →
  EnUserDB.username r = EnUser.username user →
  user_register now user db =
    (inl (HTTPException HTTP_409_CONFLICT "User already exists."), db).
Proof.
  intros Hin Hname. unfold user_register, bind, db_exec_first.
  destruct (find_elem_is_Some (username_eq (EnUser.username user)) db r)
    as [r' ->]; [done|by apply username_eq_true|done].
Qed.

(** X1.  A registration whose name, exactly as sent, is the name of a stored
    row is refused with the 409 "User already exists." (also when the mail is
    taken as well); one whose name is free but whose mail is the mail of a
    stored row is refused with the 409 "Mail already in use.".  Neither
    changes the table. *)
Theorem user_register_conflict `{Externals} (now : Z) (user : EnUser.t)
  (db : Session) (r : EnUserDB.t) :
  r ∈ db →
  (EnUserDB.username r = EnUser.username user →
   user_register now user db =
     (inl (HTTPException HTTP_409_CONFLICT "User already exists."), db))
  ∧ ((∀ r', r' ∈ db → EnUserDB.username r' ≠ EnUser.username user) →
     EnUserDB.mail r = EnUser.mail user →
     user_register now user db =
       (inl (HTTPException HTTP_409_CONFLICT "Mail already in use."), db)).
Proof.
  intros Hin. split.
  - by apply user_register_name_taken.
  - intros Hfree Hmail. unfold user_register, bind, db_exec_first.
    rewrite find_None_elem.
    + destruct (find_elem_is_Some (mail_eq (EnUser.mail user)) db r)
        as [r' ->]; [done|by apply mail_eq_true|done].
    + intros r' Hr'. apply not_true_is_false. rewrite username_eq_true.
      by apply Hfree.
Qed.

Lemma user_register_conflict_witness :
  @user_register demo 200 (EnUser.mk "alice" "a@x.com" "pw9") [alice] =
    (inl (HTTPException HTTP_409_CONFLICT "User already exists."), [alice])
  ∧ @user_register demo 200 (EnUser.mk "carol" "a@x.com" "pw9") [alice] =
      (inl (HTTPException HTTP_409_CONFLICT "Mail already in use."), [alice]).
Proof.
  split.
  - apply (proj1 (@user_register_conflict demo 200
                    (EnUser.mk "alice" "a@x.com" "pw9") [alice] alice
                    ltac:(apply list_elem_of_here))).
    reflexivity.
  - apply (proj2 (@user_register_conflict demo 200
                    (EnUser.mk "carol" "a@x.com" "pw9") [alice] alice
                    ltac:(apply list_elem_of_here))).
    + intros r' Hr'. apply list_elem_of_singleton in Hr' as ->. done.
    + reflexivity.
Defined.

(** X2.  A registration that is answered has appended exactly one row to the
    table and left the others as they were: the row has the key the engine
    chose, the name as [str.lower] returns it, the mail as sent, the hasher's output for
    the password, the time of the call as date of joining and no login yet;
    the table satisfies the engine's constraints. *)
Theorem user_register_stores `{Externals} (now : Z) (user : EnUser.t)
  (db db' : Session) (resp : response) :
  user_register now user db = (inr resp, db') →
  ∃ k : Z,
    next_key db = Some k
    ∧ db' =
        (db ++ [EnUserDB.mk (Some k) (str_lower (EnUser.username user))
                  (EnUser.mail user)
                  (pbkdf2_sha256_hash (EnUser.password user))
                  (Some now) None])%list
    ∧ constraints_ok db' = true.
Proof.
  intros Hrun.
  destruct (user_register_success _ _ _ _ _ Hrun) as (k & Hkey & -> & Hok & _).
  by exists k.
Qed.

Lemma user_register_stores_witness :
  ∃ k : Z,
    @next_key demo [] = Some k
    ∧ [alice] =
        ([] ++ [EnUserDB.mk (Some k) (lower (EnUser.username alice_request))
                  (EnUser.mail alice_request)
                  (@pbkdf2_sha256_hash demo (EnUser.password alice_request))
                  (Some 100) None])%list
    ∧ @constraints_ok demo [alice] = true.
Proof.
  apply (@user_register_stores demo 100 alice_request [] [alice]
           (JSONResponse "User created." {[ "username" := JStr "Alice" ]}
              ".Alice" "bearer" HTTP_200_OK)).
  reflexivity.
Defined.

(** X3.  A registration that raises leaves the table as it was, with one
    exception: the 404 "User registration failed." is raised after the
    commit, so the new row, without a key, is in the table when the caller
    is told that the registration failed. *)
Theorem user_register_failure `{Externals} (now : Z) (user : EnUser.t)
  (db db' : Session) (e : exn) :
  user_register now user db = (inl e, db') →
  (e = HTTPException HTTP_404_NOT_FOUND "User registration failed."
   ∧ next_key db = None
   ∧ db' = (db ++ [new_account now user])%list)
  ∨ (e ≠ HTTPException HTTP_404_NOT_FOUND "User registration failed."
     ∧ db' = db).
Proof.
  unfold user_register, bind, db_exec_first, raise.
  destruct (List.find (username_eq _) db); [intros [= <- <-]; by right|].
  destruct (List.find (mail_eq _) db); [intros [= <- <-]; by right|].
  unfold db_insert, commit. simpl.
  destruct (constraints_ok _); [|intros [= <- <-]; by right].
  destruct (next_key db) as [k|] eqn:Hkey; simpl; [done|].
  intros [= <- <-]. by left.
Qed.

Lemma user_register_failure_witness :
  (HTTPException HTTP_404_NOT_FOUND "User registration failed."
     = HTTPException HTTP_404_NOT_FOUND "User registration failed."
   ∧ @next_key demo_keyless [] = None
   ∧ [@new_account demo_keyless 100 alice_request] =
       ([] ++ [@new_account demo_keyless 100 alice_request])%list)
  ∨ (HTTPException HTTP_404_NOT_FOUND "User registration failed."
       ≠ HTTPException HTTP_404_NOT_FOUND "User registration failed."
     ∧ [@new_account demo_keyless 100 alice_request] = []).
Proof.
  apply (@user_register_failure demo_keyless 100 alice_request []).
  reflexivity.
Defined.

(** X4.  After a registration has been answered, a second one is refused
    with a 409 when it sends what [str.lower] makes of the first name (so
    also the same request again, when its name was in lower case already) or
    the same mail; the table stays as the first registration left it. *)
Theorem user_register_again `{Externals} (now now' : Z) (user user' : EnUser.t)
  (db db' : Session) (resp : response) :
  user_register now user db = (inr resp, db') →
  (EnUser.username user' = str_lower (EnUser.username user) →
   user_register now' user' db' =
     (inl (HTTPException HTTP_409_CONFLICT "User already exists."), db'))
  ∧ (EnUser.mail user' = EnUser.mail user →
     ∃ detail : string,
       user_register now' user' db' =
         (inl (HTTPException HTTP_409_CONFLICT detail), db')).
Proof.
  intros Hrun.
  destruct (user_register_success _ _ _ _ _ Hrun) as (k & _ & -> & _).
  set (o := setattr (new_account now user) A_id (Some k)).
  assert (o ∈ (db ++ [o])%list) as Hin.
  { apply elem_of_app. right. apply list_elem_of_here. }
  split.
  - intros Hname. by apply (user_register_name_taken now' user' _ o).
  - intros Hmail. unfold user_register, bind, db_exec_first.
    destruct (List.find (username_eq _) _); [by eexists|].
    destruct (find_elem_is_Some (mail_eq (EnUser.mail user')) (db ++ [o])%list o)
      as [r' ->]; [done|by apply mail_eq_true|by eexists].
Qed.

Lemma user_register_again_witness :
  @user_register demo 200 (EnUser.mk "alice" "new@x.com" "pw2") [alice] =
    (inl (HTTPException HTTP_409_CONFLICT "User already exists."), [alice])
  ∧ ∃ detail : string,
      @user_register demo 200 (EnUser.mk "carol" "a@x.com" "pw2") [alice] =
        (inl (HTTPException HTTP_409_CONFLICT detail), [alice]).
Proof.
  split.
  - apply (proj1 (@user_register_again demo 100 200 alice_request
                    (EnUser.mk "alice" "new@x.com" "pw2") [] [alice]
                    (JSONResponse "User created."
                       {[ "username" := JStr "Alice" ]} ".Alice" "bearer"
                       HTTP_200_OK) eq_refl)).
    reflexivity.
  - apply (proj2 (@user_register_again demo 100 200 alice_request
                    (EnUser.mk "carol" "a@x.com" "pw2") [] [alice]
                    (JSONResponse "User created."
                       {[ "username" := JStr "Alice" ]} ".Alice" "bearer"
                       HTTP_200_OK) eq_refl)).
    reflexivity.
Defined.

(** ** Registration followed by login *)

Lemma replace_first_app_None (p : EnUserDB.t → bool) (o o' : EnUserDB.t)
  (db : Session) :
  (∀ r, r ∈ db → p r = false) → p o = true →
  replace_first p o' (db ++ [o])%list = (db ++ [o'])%list.
Proof.
  intros Hall Hp. induction db as [|r db IH]; simpl.
  - by rewrite Hp.
  - rewrite (Hall r) by apply list_elem_of_here.
    rewrite IH; [done|]. intros r' Hr'. apply Hall. by apply list_elem_of_further.
Qed.

Lemma constraints_ok_fresh_key `{Externals} (db : Session) (o : EnUserDB.t)
  (k : Z) :
  constraints_ok (db ++ [o])%list = true → EnUserDB.id o = Some k →
  ∀ r, r ∈ db → same_row o r = false.
Proof.
  unfold constraints_ok. intros Hok Hid r Hr.
  apply andb_true_iff in Hok as [Hkeys _].
  apply bool_decide_eq_true in Hkeys. rewrite omap_app in Hkeys.
  apply NoDup_app in Hkeys as (_ & Hfresh & _).
  apply bool_decide_eq_false. rewrite Hid. intros Hrk.
  apply (Hfresh k).
  - apply list_elem_of_omap. eauto.
  - csimpl. rewrite Hid. csimpl. apply list_elem_of_here.
Qed.

(** X5.  Registration and login compose: when the name as [str.lower]
    returns it was not yet in the table and the hasher verifies what it
    hashed, a login with that lower-case name and the registered password,
    right after the registration, is answered with a token; its claims are
    the key and the name of the new row, and the row's [last_login] is the
    time of the login. *)
Theorem register_then_login `{Externals} (now now' : Z) (user : EnUser.t)
  (db db' : Session) (resp : response) :
  user_register now user db = (inr resp, db') →
  List.find (username_eq (str_lower (EnUser.username user))) db = None →
  pbkdf2_sha256_verify (EnUser.password user)
    (pbkdf2_sha256_hash (EnUser.password user)) = true →
  ∃ (k : Z) (o : EnUserDB.t),
    db' = (db ++ [o])%list
    ∧ EnUserDB.id o = Some k
    ∧ user_login now' (str_lower (EnUser.username user)) (EnUser.password user) db'
      = (inr (JSONResponse "User login successful."
                {[ "id" := JInt k;
                   "username" := JStr (str_lower (EnUser.username user)) ]}
                (jwt_encode
                   {[ "id" := JInt k;
                      "username" := JStr (str_lower (EnUser.username user)) ]})
                "bearer" HTTP_200_OK),
         (db ++ [setattr o A_last_login (Some now')])%list).
Proof.
  intros Hrun Hfree Hverify.
  destruct (user_register_success _ _ _ _ _ Hrun) as (k & _ & -> & Hok & _).
  set (o := setattr (new_account now user) A_id (Some k)) in *.
  exists k, o. split_and!; [done..|].
  rewrite user_login_exact. rewrite (find_app_None _ _ _ Hfree).
  replace (username_eq (str_lower (EnUser.username user)) o) with true
    by (symmetry; by apply username_eq_true).
  simpl. rewrite Hverify.
  rewrite replace_first_app_None;
    [|by eapply constraints_ok_fresh_key|apply same_row_refl].
  erewrite constraints_ok_columns; [rewrite Hok; done|..];
    by rewrite !fmap_app.
Qed.

Lemma register_then_login_witness :
  ∃ (k : Z) (o : EnUserDB.t),
    [alice] = ([] ++ [o])%list
    ∧ EnUserDB.id o = Some k
    ∧ @user_login demo 200 (lower (EnUser.username alice_request))
        (EnUser.password alice_request) [alice]
      = (inr (JSONResponse "User login successful."
                {[ "id" := JInt k;
                   "username" := JStr (lower (EnUser.username alice_request)) ]}
                (@jwt_encode demo
                   {[ "id" := JInt k;
                      "username" :=
                        JStr (lower (EnUser.username alice_request)) ]})
                "bearer" HTTP_200_OK),
         ([] ++ [setattr o A_last_login (Some 200)])%list).
Proof.
  apply (@register_then_login demo 100 200 alice_request [] [alice]
           (JSONResponse "User created." {[ "username" := JStr "Alice" ]}
              ".Alice" "bearer" HTTP_200_OK));
    reflexivity.
Defined.

(** ** Login: what a successful one changes *)

Lemma user_login_success `{Externals} (now : Z) (username password : string)
  (db db' : Session) (resp : response) :
  user_login now username password db = (inr resp, db') →
  NoDup (EnUserDB.id <$> db) →
  ∃ (i : nat) (user_db : EnUserDB.t),
    db !! i = Some user_db
    ∧ List.find (username_eq username) db = Some user_db
    ∧ pbkdf2_sha256_verify password (EnUserDB.password user_db) = true
    ∧ db' = <[i:=setattr user_db A_last_login (Some now)]> db
    ∧ resp = JSONResponse "User login successful."
               (get_token_information user_db)
               (jwt_encode (get_token_information user_db))
               "bearer" HTTP_200_OK.
Proof.
  rewrite user_login_exact. intros Hrun Hdup.
  destruct (List.find (username_eq username) db) as [user_db|] eqn:Hfind;
    [|done].
  destruct (pbkdf2_sha256_verify _ _) eqn:Hverify; [|done].
  cbv zeta in Hrun. destruct (constraints_ok _); [|done].
  injection Hrun as <- <-.
  destruct (find_Some_elem _ _ _ Hfind) as [Hin Hname].
  destruct (replace_first_insert (same_row user_db)
              (setattr user_db A_last_login (Some now)) user_db db)
    as (i & Hi & Hrep); [by apply find_same_row|].
  exists i, user_db. split_and!; done.
Qed.

Lemma unique_column_index {B : Type} (f : EnUserDB.t → B) (db : Session)
  (i j : nat) (r1 r2 : EnUserDB.t) :
  NoDup (f <$> db) → db !! i = Some r1 → db !! j = Some r2 →
  f r2 = f r1 → j = i.
Proof.
  unfold Session in *. intros Hdup Hi Hj Heq.
  apply (NoDup_lookup (f <$> db) j i (f r1)); [done|..];
    rewrite list_lookup_fmap.
  - by rewrite Hj, <- Heq.
  - by rewrite Hi.
Qed.

(** X6.  In a table with unique keys and unique names, a login that is
    answered has changed one thing: the [last_login] of the row whose name
    is the name typed (there is no other such row), which is now the time of
    the call.  The password given verifies against that row's hash, and the
    token encodes the key and the name of that row. *)
Theorem user_login_effect `{Externals} (now : Z) (username password : string)
  (db db' : Session) (resp : response) :
  user_login now username password db = (inr resp, db') →
  NoDup (EnUserDB.id <$> db) →
  NoDup (EnUserDB.username <$> db) →
  ∃ (i : nat) (user_db : EnUserDB.t),
    db !! i = Some user_db
    ∧ EnUserDB.username user_db = username
    ∧ (∀ (j : nat) (r : EnUserDB.t),
         db !! j = Some r → EnUserDB.username r = username → j = i)
    ∧ pbkdf2_sha256_verify password (EnUserDB.password user_db) = true
    ∧ db' = <[i:=setattr user_db A_last_login (Some now)]> db
    ∧ resp = JSONResponse "User login successful."
               (get_token_information user_db)
               (jwt_encode (get_token_information user_db))
               "bearer" HTTP_200_OK.
Proof.
  intros Hrun Hkeys Hnames.
  destruct (user_login_success _ _ _ _ _ _ Hrun Hkeys)
    as (i & user_db & Hi & Hfind & Hverify & Hdb & Hresp).
  apply find_Some_elem in Hfind as [_ Hname].
  apply username_eq_true in Hname.
  exists i, user_db. split_and!; try done.
  intros j r Hj Hr. eapply (unique_column_index EnUserDB.username); try done.
  congruence.
Qed.

Lemma user_login_effect_witness :
  ∃ (i : nat) (user_db : EnUserDB.t),
    [alice] !! i = Some user_db
    ∧ EnUserDB.username user_db = "alice"
    ∧ (∀ (j : nat) (r : EnUserDB.t),
         [alice] !! j = Some r → EnUserDB.username r = "alice" → j = i)
    ∧ @pbkdf2_sha256_verify demo "pw1" (EnUserDB.password user_db) = true
    ∧ [setattr alice A_last_login (Some 200)] =
        <[i:=setattr user_db A_last_login (Some 200)]> [alice]
    ∧ JSONResponse "User login successful." alice_claims "1.alice" "bearer"
        HTTP_200_OK =
      JSONResponse "User login successful."
        (get_token_information user_db)
        (@jwt_encode demo (get_token_information user_db))
        "bearer" HTTP_200_OK.
Proof.
  apply (@user_login_effect demo 200 "alice" "pw1" [alice]).
  - reflexivity.
  - apply NoDup_singleton.
  - apply NoDup_singleton.
Defined.

(** ** Requests that raise *)

(** X7.  [user_read] never changes the table, and a login, an update or a
    deletion that raises, whatever the exception, leaves the table as it
    was. *)
Theorem failed_request_keeps_table `{Externals} (db : Session) :
  (∀ token, (user_read token db).2 = db)
  ∧ (∀ now username password e db',
       user_login now username password db = (inl e, db') → db' = db)
  ∧ (∀ token user e db',
       update_user token user db = (inl e, db') → db' = db)
  ∧ (∀ token e db', delete_user token db = (inl e, db') → db' = db).
Proof.
  split_and!.
  - intros token. unfold user_read, bind, lift, getitem, raise, ret.
    destruct (String.eqb token ""); [done|].
    destruct (decode_token token) as [e|token_data]; [done|].
    destruct (token_data !! "id") as [ident|]; [|done].
    unfold db_get. simpl. destruct ident; simpl; try done.
    by destruct (List.find _ db).
  - intros now username password e db'. rewrite user_login_exact.
    destruct (List.find _ db); [|by intros [= _ <-]].
    destruct (pbkdf2_sha256_verify _ _); [|by intros [= _ <-]].
    simpl. destruct (constraints_ok _); [done|by intros [= _ <-]].
  - intros token user e db'. unfold update_user, bind, lift, getitem.
    destruct (decode_token token) as [e0|token_data]; [by intros [= _ <-]|].
    simpl. destruct (token_data !! "id") as [ident|]; simpl;
      [|by intros [= _ <-]].
    assert (∀ user_db : option EnUserDB.t,
      (let (s, db1) := lift (setattr_items user_db user) db in
       match s with
       | inl e1 => (inl e1, db1)
       | inr a =>
           let (s0, db2) := commit_refresh user_db a db1 in
           match s0 with
           | inl e1 => (inl e1, db2)
           | inr a0 => ret (Model (as_EnUser a0)) db2
           end
       end) = (inl e, db') → db' = db) as Hloop.
    { intros user_db. unfold lift.
      destruct (setattr_items user_db user) as [e1|changed]; simpl;
        [by intros [= _ <-]|].
      unfold commit_refresh, db_update, commit.
      destruct user_db as [l|], changed as [o|]; simpl;
        try by intros [= _ <-].
      destruct (constraints_ok _); [done|by intros [= _ <-]]. }
    destruct ident as [|k|s]; simpl; apply Hloop.
  - intros token e db'. unfold delete_user, bind, lift, getitem.
    destruct (decode_token token) as [e0|token_data]; [by intros [= _ <-]|].
    simpl. destruct (token_data !! "id") as [ident|]; simpl;
      [by intros [= _ <-]|].
    destruct (token_data !! "username") as [name|]; simpl;
      [|by intros [= _ <-]].
    destruct (List.find _ db); [done|by intros [= _ <-]].
Qed.

Lemma failed_request_keeps_table_witness :
  (@user_read demo "1.alice" [alice]).2 = [alice]
  ∧ [alice] = [alice].
Proof.
  split.
  - apply (proj1 (@failed_request_keeps_table demo [alice])).
  - apply (proj1 (proj2 (@failed_request_keeps_table demo [alice]))
             200 "alice" "secret"
             (HTTPException HTTP_401_UNAUTHORIZED "Password incorrect.")).
    reflexivity.
Defined.

(** ** Login followed by read *)

Lemma get_token_information_id (o : EnUserDB.t) :
  get_token_information o !! "id" =
    Some (match EnUserDB.id o with Some k => JInt k | None => JNull end).
Proof. unfold get_token_information. apply lookup_insert_eq. Qed.

(** X8.  Login and read compose: in a table with unique keys, when a login
    is answered, its token is not the empty string, decodes to the claims
    that were encoded and carries a key, then [user_read] with that token
    returns the row of the login, with the [last_login] just set, and leaves
    the table as the login left it. *)
Theorem login_then_read `{Externals} (now : Z) (username password : string)
  (db db' : Session) (message : string) (user_data : gmap string jvalue)
  (access_token token_type : string) (status_code : Z) :
  user_login now username password db =
    (inr (JSONResponse message user_data access_token token_type status_code),
     db') →
  NoDup (EnUserDB.id <$> db) →
  access_token ≠ "" →
  decode_token access_token = inr user_data →
  user_data !! "id" ≠ Some JNull →
  ∃ user : EnUserDB.t,
    user ∈ db'
    ∧ EnUserDB.username user = username
    ∧ EnUserDB.last_login user = Some now
    ∧ user_read access_token db' = (inr (Model (as_EnUser user)), db').
Proof.
  intros Hrun Hdup Htoken Hdecode Hkey.
  destruct (user_login_success _ _ _ _ _ _ Hrun Hdup)
    as (i & user_db & Hi & Hfind & _ & -> & [= _ -> _ _ _]).
  rewrite get_token_information_id in Hkey.
  destruct (EnUserDB.id user_db) as [k|] eqn:Hid; [clear Hkey|done].
  set (o := setattr user_db A_last_login (Some now)).
  assert (o ∈ <[i:=o]> db) as Hin.
  { apply list_elem_of_lookup. exists i. apply list_lookup_insert_eq.
    by eapply lookup_lt_Some. }
  destruct (insert_same_columns db i user_db o) as (Hids & _); try done.
  exists o. split_and!; [done| |done|].
  - apply find_Some_elem in Hfind as [_ Hname]. by apply username_eq_true.
  - rewrite (user_read_valid access_token (get_token_information user_db) k);
      [|done|done|by rewrite get_token_information_id, Hid].
    rewrite <- (same_row_has_pk k o) by done.
    rewrite find_same_row; [done| |done]. by rewrite Hids.
Qed.

Lemma login_then_read_witness :
  ∃ user : EnUserDB.t,
    user ∈ [setattr alice A_last_login (Some 200)]
    ∧ EnUserDB.username user = "alice"
    ∧ EnUserDB.last_login user = Some 200
    ∧ @user_read demo "1.alice" [setattr alice A_last_login (Some 200)] =
        (inr (Model (as_EnUser user)),
         [setattr alice A_last_login (Some 200)]).
Proof.
  apply (@login_then_read demo 200 "alice" "pw1" [alice]
           [setattr alice A_last_login (Some 200)]
           "User login successful." alice_claims "1.alice" "bearer"
           HTTP_200_OK).
  - reflexivity.
  - apply NoDup_singleton.
  - done.
  - reflexivity.
  - done.
Defined.

(** ** Tokens that are refused or incomplete *)

(** X9.  An empty token is refused by [user_read] with the 401 "Not
    authenticated." before any decoding.  A token that [decode_token]
    rejects makes [user_read], [update_user] and [delete_user] raise the
    decoder's exception, and the table is not touched. *)
Theorem rejected_token `{Externals} (token : string) (e : exn)
  (user : EnUserUpdate) (db : Session) :
  decode_token token = inl e →
  user_read "" db =
    (inl (HTTPException HTTP_401_UNAUTHORIZED "Not authenticated."), db)
  ∧ (token ≠ "" → user_read token db = (inl e, db))
  ∧ update_user token user db = (inl e, db)
  ∧ delete_user token db = (inl e, db).
Proof.
  intros Hdecode. split_and!.
  - done.
  - intros Htoken. apply String.eqb_neq in Htoken.
    unfold user_read, bind, lift. by rewrite Htoken, Hdecode.
  - unfold update_user, bind, lift. by rewrite Hdecode.
  - unfold delete_user, bind, lift. by rewrite Hdecode.
Qed.

Lemma rejected_token_witness :
  @user_read demo "" [alice] =
    (inl (HTTPException HTTP_401_UNAUTHORIZED "Not authenticated."), [alice])
  ∧ ("x.alice" ≠ "" →
     @user_read demo "x.alice" [alice] =
       (inl (HTTPException HTTP_401_UNAUTHORIZED "Invalid token."), [alice]))
  ∧ @update_user demo "x.alice" new_mail [alice] =
      (inl (HTTPException HTTP_401_UNAUTHORIZED "Invalid token."), [alice])
  ∧ @delete_user demo "x.alice" [alice] =
      (inl (HTTPException HTTP_401_UNAUTHORIZED "Invalid token."), [alice]).
Proof.
  apply (@rejected_token demo "x.alice"
           (HTTPException HTTP_401_UNAUTHORIZED "Invalid token.")
           new_mail [alice]).
  reflexivity.
Defined.

(** X10.  A token whose claims have no [id] cannot be used to read or to
    update: both handlers raise [KeyError] on ["id"] and leave the table
    alone.  [delete_user] turns to the [username] claim instead, and raises
    [KeyError] on ["username"] when that is missing too. *)
Theorem token_without_id `{Externals} (token : string)
  (token_data : gmap string jvalue) (user : EnUserUpdate) (db : Session) :
  decode_token token = inr token_data →
  token_data !! "id" = None →
  (token ≠ "" → user_read token db = (inl (KeyError "id"), db))
  ∧ update_user token user db = (inl (KeyError "id"), db)
  ∧ (token_data !! "username" = None →
     delete_user token db = (inl (KeyError "username"), db)).
Proof.
  intros Hdecode Hid. split_and!.
  - intros Htoken. apply String.eqb_neq in Htoken.
    unfold user_read, bind, lift, getitem.
    rewrite Htoken, Hdecode. simpl. by rewrite Hid.
  - unfold update_user, bind, lift, getitem.
    rewrite Hdecode. simpl. by rewrite Hid.
  - intros Hname. unfold delete_user, bind, lift, getitem.
    rewrite Hdecode. simpl. by rewrite Hid, Hname.
Qed.

Lemma token_without_id_witness :
  (".alice" ≠ "" →
   @user_read demo ".alice" [alice] = (inl (KeyError "id"), [alice]))
  ∧ @update_user demo ".alice" new_mail [alice] =
      (inl (KeyError "id"), [alice])
  ∧ (({[ "username" := JStr "alice" ]} : gmap string jvalue) !! "username"
       = None →
     @delete_user demo ".alice" [alice] =
       (inl (KeyError "username"), [alice])).
Proof.
  apply (@token_without_id demo ".alice" {[ "username" := JStr "alice" ]}
           new_mail [alice]); reflexivity.
Defined.

(** ** Updates: the values written, and the key *)

Lemma setattr_items_app (o o1 : EnUserDB.t) (l1 l2 : list item) :
  setattr_items (Some o) l1 = inr (Some o1) →
  setattr_items (Some o) (l1 ++ l2)%list = setattr_items (Some o1) l2.
Proof.
  revert o. induction l1 as [|[field value] l1 IH]; simpl; intros o.
  - by intros [= ->].
  - apply IH.
Qed.

(** X11.  An update writes what the payload says: when the token decodes to
    the key of a stored row, the attribute named by an item holds that item's
    value afterwards, provided no later item names the same attribute. *)
Theorem update_user_applies_item `{Externals} (token : string)
  (token_data : gmap string jvalue) (k : Z) (before after : list item)
  (a : attr) (v : attr_type a) (loaded : EnUserDB.t) (db : Session) :
  decode_token token = inr token_data →
  token_data !! "id" = Some (JInt k) →
  List.find (has_pk k) db = Some loaded →
  a ∉ item_field <$> after →
  ∃ (o : EnUserDB.t) (i : nat),
    getattr o a = v
    ∧ db !! i = Some loaded
    ∧ update_user token (before ++ existT a v :: after)%list db =
        if constraints_ok (<[i:=o]> db)
        then (inr (Model (as_EnUser o)), <[i:=o]> db)
        else (inl IntegrityError, db).
Proof.
  intros Hdecode Hid Hfind Hlast.
  destruct (update_user_found token token_data k
              (before ++ existT a v :: after)%list loaded db)
    as (o & i & Ho & Hi & Hrun); [done..|].
  exists o, i. split_and!; [|done..].
  destruct (setattr_items_Some loaded before) as [o1 Ho1].
  rewrite (setattr_items_app _ _ _ _ Ho1) in Ho. simpl in Ho.
  rewrite (setattr_items_frame _ _ _ a Ho Hlast).
  apply getattr_setattr_eq.
Qed.

Lemma update_user_applies_item_witness :
  ∃ (o : EnUserDB.t) (i : nat),
    getattr o A_mail = "a2@x.com"
    ∧ [alice] !! i = Some alice
    ∧ @update_user demo "1.alice"
        ([existT A_mail "old@x.com" : item]
           ++ existT A_mail "a2@x.com" :: [existT A_last_login (Some 7) : item])%list
        [alice] =
        if @constraints_ok demo (<[i:=o]> [alice])
        then (inr (Model (as_EnUser o)), <[i:=o]> [alice])
        else (inl IntegrityError, [alice]).
Proof.
  apply (@update_user_applies_item demo "1.alice" alice_claims 1
           [existT A_mail "old@x.com" : item]
           [existT A_last_login (Some 7) : item] A_mail "a2@x.com"
           alice [alice]); try reflexivity.
  intros Hin. apply list_elem_of_singleton in Hin. done.
Defined.

Lemma lookup_middle_split (db : Session) (i : nat) (r o : EnUserDB.t) :
  db !! i = Some r →
  ∃ l1 l2 : Session,
    db = (l1 ++ r :: l2)%list ∧ <[i:=o]> db = (l1 ++ o :: l2)%list.
Proof.
  intros Hi. exists (take i db), (drop (S i) db). split.
  - by rewrite take_drop_middle.
  - apply insert_take_drop. by eapply lookup_lt_Some.
Qed.

Lemma rekey_columns (l1 l2 : Session) (r : EnUserDB.t) (k k' : Z) :
  EnUserDB.id r = Some k →
  NoDup (omap EnUserDB.id (l1 ++ r :: l2)%list) →
  k' ∉ omap EnUserDB.id (l1 ++ r :: l2)%list →
  NoDup (omap EnUserDB.id (l1 ++ setattr r A_id (Some k') :: l2)%list)
  ∧ k ∉ omap EnUserDB.id (l1 ++ setattr r A_id (Some k') :: l2)%list.
Proof.
  intros Hid. rewrite !omap_app. csimpl. rewrite Hid. csimpl.
  intros Hdup Hfresh.
  apply NoDup_app in Hdup as (Hdup1 & Hsep & Hdup2).
  apply NoDup_cons in Hdup2 as [Hk2 Hdup2].
  apply not_elem_of_app in Hfresh as [Hf1 Hf2].
  apply not_elem_of_cons in Hf2 as [Hne Hf2].
  split.
  - apply NoDup_app. split_and!; [done| |].
    + intros x Hx1 Hx2. apply elem_of_cons in Hx2 as [->|Hx2]; [done|].
      apply (Hsep x Hx1). by apply list_elem_of_further.
    + by apply NoDup_cons.
  - apply not_elem_of_app. split.
    + intros Hk1. apply (Hsep k Hk1). apply list_elem_of_here.
    + apply not_elem_of_cons. split; [congruence|done].
Qed.

(** X12.  The update loop does not protect the key.  In a table that
    satisfies the engine's constraints, a payload that sets [id] to a key
    not yet in use is committed: the account moves to the new key, its other
    columns unchanged, and the token that authorised the update no longer
    finds it: [user_read] with it answers 404. *)
Theorem update_user_moves_key `{Externals} (token : string)
  (token_data : gmap string jvalue) (k k' : Z) (loaded : EnUserDB.t)
  (db : Session) :
  token ≠ "" →
  decode_token token = inr token_data →
  token_data !! "id" = Some (JInt k) →
  List.find (has_pk k) db = Some loaded →
  constraints_ok db = true →
  k' ∉ omap EnUserDB.id db →
  ∃ i : nat,
    db !! i = Some loaded
    ∧ update_user token [existT A_id (Some k') : item] db =
        (inr (Model (as_EnUser loaded)),
         <[i:=setattr loaded A_id (Some k')]> db)
    ∧ user_read token (<[i:=setattr loaded A_id (Some k')]> db) =
        (inl (HTTPException HTTP_404_NOT_FOUND "User not found."),
         <[i:=setattr loaded A_id (Some k')]> db).
Proof.
  intros Htoken Hdecode Hid Hfind Hok Hfresh.
  destruct (update_user_found token token_data k
              [existT A_id (Some k') : item] loaded db)
    as (o & i & Ho & Hi & Hrun); [done..|].
  simpl in Ho. injection Ho as <-.
  change (EnUserDB.mk (Some k') _ _ _ _ _)
    with (setattr loaded A_id (Some k')) in Hrun.
  set (o := setattr loaded A_id (Some k')) in *.
  pose proof (find_has_pk _ _ _ Hfind) as Hkey.
  destruct (lookup_middle_split db i loaded o Hi) as (l1 & l2 & Hdb & Hdb').
  unfold constraints_ok in Hok.
  apply andb_true_iff in Hok as [Hkeys Hcols].
  apply bool_decide_eq_true in Hkeys.
  rewrite Hdb in Hkeys, Hfresh.
  destruct (rekey_columns l1 l2 loaded k k' Hkey Hkeys Hfresh)
    as [Hkeys' Hgone].
  fold o in Hkeys', Hgone. rewrite <- Hdb' in Hkeys', Hgone.
  assert (constraints_ok (<[i:=o]> db) = true) as Hok'.
  { unfold constraints_ok. apply andb_true_iff. split.
    - by apply bool_decide_eq_true.
    - unfold Session in *. rewrite !list_fmap_insert. simpl.
      rewrite !list_insert_id; [done|by rewrite list_lookup_fmap, Hi..]. }
  exists i. split_and!; [done| |].
  - by rewrite Hrun, Hok'.
  - rewrite (user_read_valid token token_data k) by done.
    by rewrite find_has_pk_None.
Qed.

Lemma update_user_moves_key_witness :
  ∃ i : nat,
    [alice] !! i = Some alice
    ∧ @update_user demo "1.alice" [existT A_id (Some 5) : item] [alice] =
        (inr (Model (as_EnUser alice)), <[i:=setattr alice A_id (Some 5)]> [alice])
    ∧ @user_read demo "1.alice" (<[i:=setattr alice A_id (Some 5)]> [alice]) =
        (inl (HTTPException HTTP_404_NOT_FOUND "User not found."),
         <[i:=setattr alice A_id (Some 5)]> [alice]).
Proof.
  apply (@update_user_moves_key demo "1.alice" alice_claims 1 5 alice [alice]);
    try reflexivity; try done.
  intros Hin. apply list_elem_of_singleton in Hin. done.
Defined.

(** ** Deletion *)

Lemma delete_user_success `{Externals} (token : string) (db db' : Session)
  (resp : response) :
  delete_user token db = (inr resp, db') →
  ∃ (token_data : gmap string jvalue) (name : string) (user : EnUserDB.t),
    decode_token token = inr token_data
    ∧ token_data !! "id" = None
    ∧ token_data !! "username" = Some (JStr name)
    ∧ List.find (username_eq name) db = Some user
    ∧ db' = remove_first (same_row user) db
    ∧ resp = JSONResponse_deleted "User was successfully deleted."
               (get_token_information user) token "bearer" HTTP_200_OK.
Proof.
  unfold delete_user, bind, lift, getitem.
  destruct (decode_token token) as [e|token_data] eqn:Hdecode; [done|].
  simpl. destruct (token_data !! "id") as [ident|] eqn:Hid; simpl; [done|].
  destruct (token_data !! "username") as [v|] eqn:Hname; simpl; [|done].
  destruct (List.find (username_is v) db) as [user|] eqn:Hfind; [|done].
  intros [= <- <-].
  destruct (find_Some_elem _ _ _ Hfind) as [_ Hv].
  destruct v as [| |name]; try done.
  by exists token_data, name, user.
Qed.

(** X13.  In a table with unique keys and unique names, a deletion that is
    answered was made with a token that has a [username] claim and no [id];
    it has removed exactly one row, the row of that name (there is no other
    such row), and kept every other row in its place; the answer shows the
    key and the name of the removed row and echoes the token. *)
Theorem delete_user_effect `{Externals} (token : string) (db db' : Session)
  (resp : response) :
  delete_user token db = (inr resp, db') →
  NoDup (EnUserDB.id <$> db) →
  NoDup (EnUserDB.username <$> db) →
  ∃ (token_data : gmap string jvalue) (name : string) (i : nat)
    (user : EnUserDB.t),
    decode_token token = inr token_data
    ∧ token_data !! "id" = None
    ∧ token_data !! "username" = Some (JStr name)
    ∧ db !! i = Some user
    ∧ EnUserDB.username user = name
    ∧ (∀ (j : nat) (r : EnUserDB.t),
         db !! j = Some r → EnUserDB.username r = name → j = i)
    ∧ db' = delete i db
    ∧ resp = JSONResponse_deleted "User was successfully deleted."
               (get_token_information user) token "bearer" HTTP_200_OK.
Proof.
  intros Hrun Hkeys Hnames.
  destruct (delete_user_success _ _ _ _ Hrun)
    as (token_data & name & user & Hdecode & Hid & Hname & Hfind & -> & ->).
  destruct (find_Some_elem _ _ _ Hfind) as [Hin Huser].
  apply username_eq_true in Huser.
  destruct (remove_first_delete (same_row user) user db)
    as (i & Hi & Hrem); [by apply find_same_row|].
  exists token_data, name, i, user. split_and!; try done.
  intros j r Hj Hr. eapply (unique_column_index EnUserDB.username); try done.
  congruence.
Qed.

Lemma delete_user_effect_witness :
  ∃ (token_data : gmap string jvalue) (name : string) (i : nat)
    (user : EnUserDB.t),
    @decode_token demo ".alice" = inr token_data
    ∧ token_data !! "id" = None
    ∧ token_data !! "username" = Some (JStr name)
    ∧ [alice] !! i = Some user
    ∧ EnUserDB.username user = name
    ∧ (∀ (j : nat) (r : EnUserDB.t),
         [alice] !! j = Some r → EnUserDB.username r = name → j = i)
    ∧ [] = delete i [alice]
    ∧ JSONResponse_deleted "User was successfully deleted." alice_claims
        ".alice" "bearer" HTTP_200_OK =
      JSONResponse_deleted "User was successfully deleted."
        (get_token_information user) ".alice" "bearer" HTTP_200_OK.
Proof.
  apply (@delete_user_effect demo ".alice" [alice]).
  - reflexivity.
  - apply NoDup_singleton.
  - apply NoDup_singleton.
Defined.

Lemma delete_unique_column {B : Type} (f : EnUserDB.t → B) (db : Session)
  (i : nat) (user r : EnUserDB.t) :
  NoDup (f <$> db) → db !! i = Some user → r ∈ delete i db → f r ≠ f user.
Proof.
  unfold Session in *. intros Hdup Hi Hr Heq.
  rewrite delete_take_drop in Hr.
  rewrite <- (take_drop_middle db i user Hi) in Hdup.
  rewrite fmap_app, fmap_cons in Hdup.
  apply NoDup_app in Hdup as (_ & Hsep & Hdup).
  apply NoDup_cons in Hdup as [Hafter _].
  apply elem_of_app in Hr as [Hr|Hr].
  - apply (Hsep (f user)).
    + rewrite <- Heq. apply list_elem_of_fmap. eauto.
    + apply list_elem_of_here.
  - apply Hafter. rewrite <- Heq. apply list_elem_of_fmap. eauto.
Qed.

(** X14.  In a table with unique keys and unique names, a deletion cannot be
    repeated: after it has been answered, the same token is answered with
    the 404 "User not found.", and nothing more is removed. *)
Theorem delete_user_twice `{Externals} (token : string) (db db' : Session)
  (resp : response) :
  delete_user token db = (inr resp, db') →
  NoDup (EnUserDB.id <$> db) →
  NoDup (EnUserDB.username <$> db) →
  delete_user token db' =
    (inl (HTTPException HTTP_404_NOT_FOUND "User not found."), db').
Proof.
  intros Hrun Hkeys Hnames.
  destruct (delete_user_success _ _ _ _ Hrun)
    as (token_data & name & user & Hdecode & Hid & Hname & Hfind & -> & _).
  destruct (find_Some_elem _ _ _ Hfind) as [Hin Huser].
  apply username_eq_true in Huser.
  destruct (remove_first_delete (same_row user) user db)
    as (i & Hi & ->); [by apply find_same_row|].
  rewrite (delete_user_by_username token token_data name) by done.
  rewrite find_None_elem; [done|].
  intros r Hr. apply not_true_is_false. rewrite username_eq_true.
  rewrite <- Huser. by eapply delete_unique_column.
Qed.

Lemma delete_user_twice_witness :
  @delete_user demo ".alice" [] =
    (inl (HTTPException HTTP_404_NOT_FOUND "User not found."), []).
Proof.
  apply (@delete_user_twice demo ".alice" [alice] []
           (JSONResponse_deleted "User was successfully deleted." alice_claims
              ".alice" "bearer" HTTP_200_OK)).
  - reflexivity.
  - apply NoDup_singleton.
  - apply NoDup_singleton.
Defined.

(** ** Update followed by read *)

Lemma update_user_success `{Externals} (token : string) (user : EnUserUpdate)
  (db db' : Session) (resp : response) :
  update_user token user db = (inr resp, db') →
  ∃ (token_data : gmap string jvalue) (k : Z) (loaded o : EnUserDB.t)
    (i : nat),
    decode_token token = inr token_data
    ∧ token_data !! "id" = Some (JInt k)
    ∧ List.find (has_pk k) db = Some loaded
    ∧ setattr_items (Some loaded) user = inr (Some o)
    ∧ db !! i = Some loaded
    ∧ db' = <[i:=o]> db
    ∧ resp = Model (as_EnUser o).
Proof.
  intros Hrun.
  destruct (decode_token token) as [e|token_data] eqn:Hdecode.
  { unfold update_user, bind, lift in Hrun. by rewrite Hdecode in Hrun. }
  destruct (token_data !! "id") as [ident|] eqn:Hid.
  2: { unfold update_user, bind, lift, getitem in Hrun.
       rewrite Hdecode in Hrun. simpl in Hrun. by rewrite Hid in Hrun. }
  assert (∃ k loaded, ident = JInt k ∧ List.find (has_pk k) db = Some loaded)
    as (k & loaded & -> & Hfind).
  { unfold update_user, bind, lift, getitem in Hrun.
    rewrite Hdecode in Hrun. simpl in Hrun. rewrite Hid in Hrun.
    simpl in Hrun.
    assert ((let (s, db1) := lift (setattr_items None user) db in
             match s with
             | inl e1 => (inl e1, db1)
             | inr a =>
                 let (s0, db2) := commit_refresh None a db1 in
                 match s0 with
                 | inl e1 => (inl e1, db2)
                 | inr a0 => ret (Model (as_EnUser a0)) db2
                 end
             end) ≠ (inr resp, db')) as Hnone.
    { unfold lift. by destruct (setattr_items None user) as [e1|changed]. }
    destruct ident as [|k|s]; simpl in Hrun;
      [by destruct Hnone| |by destruct Hnone].
    destruct (List.find (has_pk k) db) as [loaded|] eqn:Hfind; [by eauto|].
    by destruct Hnone. }
  destruct (update_user_found token token_data k user loaded db)
    as (o & i & Ho & Hi & Hfound); [done..|].
  rewrite Hfound in Hrun.
  destruct (constraints_ok _); [|done].
  injection Hrun as <- <-. by exists token_data, k, loaded, o, i.
Qed.

(** X16.  Update and read compose: in a table with unique keys, after an
    update that did not name the key has been answered, [user_read] with the
    same token returns the very body the update returned and leaves the
    table alone. *)
Theorem update_then_read `{Externals} (token : string) (user : EnUserUpdate)
  (db db' : Session) (resp : response) :
  update_user token user db = (inr resp, db') →
  token ≠ "" →
  NoDup (EnUserDB.id <$> db) →
  A_id ∉ item_field <$> user →
  user_read token db' = (inr resp, db').
Proof.
  intros Hrun Htoken Hdup Hkey.
  destruct (update_user_success _ _ _ _ _ Hrun)
    as (token_data & k & loaded & o & i & Hdecode & Hid & Hfind & Ho & Hi
        & -> & ->).
  pose proof (setattr_items_frame _ _ _ A_id Ho Hkey) as Hsame.
  simpl in Hsame. pose proof (find_has_pk _ _ _ Hfind) as Hloaded.
  rewrite (user_read_valid token token_data k) by done.
  rewrite <- (same_row_has_pk k o) by congruence.
  rewrite find_same_row; [done| |].
  - unfold Session in *. rewrite list_fmap_insert, Hsame.
    rewrite list_insert_id; [done|by rewrite list_lookup_fmap, Hi].
  - apply list_elem_of_lookup. exists i. apply list_lookup_insert_eq.
    by eapply lookup_lt_Some.
Qed.

Lemma update_then_read_witness :
  @user_read demo "1.alice" [setattr alice A_mail "a2@x.com"] =
    (inr (Model (EnUser.mk "alice" "a2@x.com" (demo_hash "pw1"))),
     [setattr alice A_mail "a2@x.com"]).
Proof.
  apply (@update_then_read demo "1.alice" new_mail [alice]).
  - reflexivity.
  - done.
  - apply NoDup_singleton.
  - intros Hin. apply list_elem_of_singleton in Hin. done.
Defined.
